(** * websockets.server: the server side of the WebSocket opening handshake

    A shallow embedding of [src/websockets/server.py]: the protocol class
    [WebSocketServerProtocol] (constructor, [connection_made], the
    per-connection task [handler], the opening [handshake]) and the
    [serve] coroutine, together with the collaborators the module imports
    ([read_request], [check_request], [build_response], [USER_AGENT], the
    common protocol's [close], the event loop's [create_server]).

    Coroutines are run to completion in one piece: the server is
    single-threaded and cooperative, and every statement of a coroutine body
    is executed in program order; a [yield from] is a call whose outcome is
    either a value or a raised exception. *)

From Stdlib Require Import List String Ascii NArith Arith Bool Lia.
From Stdlib Require Import Strings.Byte.
Import ListNotations.

Local Open Scope string_scope.
Local Open Scope list_scope.

(** ** Python values used by the module *)

(** [str.encode()]: the module only handles text whose characters are
    single bytes ("the headers only contain ASCII characters"), so a [str]
    and its encoding hold the same octets. *)
Definition encode (s : string) : list byte := list_byte_of_string s.

(** [bytes.decode()], the inverse direction. *)
Definition decode (b : list byte) : string := string_of_list_byte b.

(** [sep.join(parts)] *)
Fixpoint join (sep : string) (parts : list string) : string :=
  match parts with
  | [] => ""
  | [p] => p
  | p :: rest => (p ++ sep ++ join sep rest)%string
  end.

Definition lower_ascii (c : ascii) : ascii :=
  let n := nat_of_ascii c in
  if (65 <=? n)%nat && (n <=? 90)%nat then ascii_of_nat (n + 32) else c.

(** [str.lower()] on single-byte text. *)
Fixpoint lower (s : string) : string :=
  match s with
  | EmptyString => EmptyString
  | String c rest => String (lower_ascii c) (lower rest)
  end.

Definition CRLF : string := String (ascii_of_nat 13) (String (ascii_of_nat 10) "").

(** ** hashlib.sha1 *)

Module SHA1.
Local Open Scope N_scope.

Definition mask32 : N := 0xFFFFFFFF.
Definition add32 (x y : N) : N := N.land (x + y) mask32.
Definition rotl32 (n x : N) : N :=
  N.land (N.lor (N.shiftl x n) (N.shiftr x (32 - n))) mask32.
Definition not32 (x : N) : N := N.lxor (N.land x mask32) mask32.

(** Round function and round constant of step [t]. *)
Definition f (t : nat) (b c d : N) : N :=
  if (t <? 20)%nat then N.lor (N.land b c) (N.land (not32 b) d)
  else if (t <? 40)%nat then N.lxor (N.lxor b c) d
  else if (t <? 60)%nat then
    N.lor (N.lor (N.land b c) (N.land b d)) (N.land c d)
  else N.lxor (N.lxor b c) d.

Definition K (t : nat) : N :=
  if (t <? 20)%nat then 0x5A827999
  else if (t <? 40)%nat then 0x6ED9EBA1
  else if (t <? 60)%nat then 0x8F1BBCDC
  else 0xCA62C1D6.

(** Message padding: a [1] bit, zeros up to 56 modulo 64, then the bit
    length as a 64-bit big-endian integer. *)
Definition be_bytes (width : nat) (n : N) : list N :=
  map (fun i => N.land (N.shiftr n (8 * N.of_nat (width - 1 - i))) 0xFF)
      (seq 0 width).

Definition pad (msg : list N) : list N :=
  let len := List.length msg in
  let r := (len mod 64)%nat in
  let zeros := if (r <=? 55)%nat then (55 - r)%nat else (119 - r)%nat in
  msg ++ [0x80] ++ repeat 0 zeros ++ be_bytes 8 (8 * N.of_nat len).

Fixpoint words_of_bytes (bs : list N) : list N :=
  match bs with
  | b0 :: b1 :: b2 :: b3 :: rest =>
      (N.shiftl b0 24 + N.shiftl b1 16 + N.shiftl b2 8 + b3)
        :: words_of_bytes rest
  | _ => []
  end.

Fixpoint blocks (fuel : nat) (ws : list N) : list (list N) :=
  match fuel, ws with
  | O, _ | _, [] => []
  | S fuel', _ => firstn 16 ws :: blocks fuel' (skipn 16 ws)
  end.

(** Message schedule: the block's sixteen words extended to eighty. *)
Fixpoint schedule (n : nat) (w : list N) : list N :=
  match n with
  | O => w
  | S n' =>
      let t := List.length w in
      let x i := nth (t - i) w 0 in
      schedule n' (w ++ [rotl32 1 (N.lxor (N.lxor (N.lxor (x 3%nat) (x 8%nat))
                                                  (x 14%nat)) (x 16%nat))])
  end.

Definition state : Type := (N * N * N * N * N)%type.

Definition round (st : state) (tw : nat * N) : state :=
  let '(a, b, c, d, e) := st in
  let '(t, w) := tw in
  let tmp := add32 (add32 (add32 (add32 (rotl32 5 a) (f t b c d)) e) (K t)) w in
  (tmp, a, rotl32 30 b, c, d).

Definition compress (h : state) (block : list N) : state :=
  let w := schedule 64 block in
  let '(a, b, c, d, e) := fold_left round (combine (seq 0 80) w) h in
  let '(h0, h1, h2, h3, h4) := h in
  (add32 h0 a, add32 h1 b, add32 h2 c, add32 h3 d, add32 h4 e).

Definition H0 : state :=
  (0x67452301, 0xEFCDAB89, 0x98BADCFE, 0x10325476, 0xC3D2E1F0).

Definition digest_words (msg : list N) : state :=
  let ws := words_of_bytes (pad msg) in
  fold_left compress (blocks (List.length ws) ws) H0.

Definition byte_of_N (n : N) : byte :=
  match Byte.of_N n with Some b => b | None => x00 end.

(** [hashlib.sha1(data).digest()]: the 20 octets of the digest. *)
Definition digest (data : list byte) : list byte :=
  let '(h0, h1, h2, h3, h4) := digest_words (map Byte.to_N data) in
  map byte_of_N (flat_map (be_bytes 4) [h0; h1; h2; h3; h4]).

(** [hashlib.sha1(data).hexdigest()], to compare against published vectors. *)
Definition hex_digit (n : N) : ascii :=
  match String.get (N.to_nat n) "0123456789abcdef" with
  | Some c => c
  | None => "?"%char
  end.

Definition hexdigest (data : list byte) : string :=
  string_of_list_ascii
    (flat_map (fun b => let n := Byte.to_N b in
                        [hex_digit (N.shiftr n 4); hex_digit (N.land n 15)])
              (digest data)).
End SHA1.

(** ** base64.b64encode *)

Module Base64.
Local Open Scope N_scope.

Definition alphabet : string :=
  "ABCDEFGHIJKLMNOPQRSTUVWXYZabcdefghijklmnopqrstuvwxyz0123456789+/".

Definition sextet (n : N) : ascii :=
  match String.get (N.to_nat (N.land n 63)) alphabet with
  | Some c => c
  | None => "="%char
  end.

Fixpoint encode_N (bs : list N) : list ascii :=
  match bs with
  | [] => []
  | [a] =>
      let n := N.shiftl a 16 in
      [sextet (N.shiftr n 18); sextet (N.shiftr n 12); "="%char; "="%char]
  | [a; b] =>
      let n := N.shiftl a 16 + N.shiftl b 8 in
      [sextet (N.shiftr n 18); sextet (N.shiftr n 12);
       sextet (N.shiftr n 6); "="%char]
  | a :: b :: c :: rest =>
      let n := N.shiftl a 16 + N.shiftl b 8 + c in
      sextet (N.shiftr n 18) :: sextet (N.shiftr n 12)
        :: sextet (N.shiftr n 6) :: sextet n :: encode_N rest
  end.

(** [base64.b64encode(data)] *)
Definition b64encode (data : list byte) : list byte :=
  map byte_of_ascii (encode_N (map Byte.to_N data)).
End Base64.

(** ** Exceptions and outcomes *)

(** The exceptions that travel through the module.  [InvalidHandshakeFrom]
    is [InvalidHandshake(msg)] raised [from] a cause.  [OtherException] is
    any other instance of [Exception] a collaborator raises; [NonException]
    is a
    [BaseException] outside [Exception] ([KeyboardInterrupt], [SystemExit],
    [GeneratorExit]), which [except Exception] does not catch. *)
Inductive exn : Type :=
| NotImplementedError (msg : string)
| AssertionError (msg : string)
| TypeError (msg : string)
| InvalidStateError
| InvalidHandshake (msg : string)
| InvalidHandshakeFrom (msg : string) (cause : exn)
| OtherException (name : string)
| NonException (name : string).

(** [isinstance(e, Exception)] *)
Definition is_Exception (e : exn) : bool :=
  match e with
  | NonException _ => false
  | _ => true
  end.

Inductive outcome (A : Type) : Type :=
| Returned (a : A)
| Raised (e : exn).
Arguments Returned {A} a.
Arguments Raised {A} e.

(** ** The connection object *)

(** The transport as the module uses it: [write(data)] and [close()]. *)
Record transport_t : Type := mkTransport {
  written : list (list byte);
  close_calls : nat
}.

(** The mutable attributes of a protocol instance: [state] (a [str], class
    attribute ['CONNECTING']), the [opening_handshake] future ([None] while
    pending), the [transport] and the input [stream]. *)
Record connection : Type := mkConnection {
  state : string;
  opening_handshake : option bool;
  transport : transport_t;
  stream : list byte
}.

(** What the task of a connection does, in program order. *)
Inductive event : Type :=
| ReadRequest
| TransportWrite (data : list byte)
| SetState (s : string)
| SetResult (v : bool)
| CallHandler (uri : string)
| CallClose
| LogWarning (msg : string) (exc_info : exn)
| TransportClose
| CreateServer (host : option string) (port : option N).

(** The user handler [ws_handler(self, uri)]: fully opaque, it may change
    any attribute of the connection and return or raise. *)
Definition handler_fn : Type :=
  string -> connection -> outcome unit * connection.

(** ** Coroutine bodies: state, exceptions and the trace of operations *)

Definition M (A : Type) : Type :=
  connection -> outcome A * connection * list event.

Definition ret {A} (a : A) : M A := fun c => (Returned a, c, []).

Definition raise {A} (e : exn) : M A := fun c => (Raised e, c, []).

Definition bind {A B} (m : M A) (k : A -> M B) : M B :=
  fun c =>
    match m c with
    | (Returned a, c1, t1) =>
        let '(r, c2, t2) := k a c1 in (r, c2, t1 ++ t2)
    | (Raised e, c1, t1) => (Raised e, c1, t1)
    end.

(** [try: body except Exception as exc: h exc] *)
Definition try_except {A} (body : M A) (h : exn -> M A) : M A :=
  fun c =>
    match body c with
    | (Raised e, c1, t1) =>
        if is_Exception e
        then let '(r, c2, t2) := h e c1 in (r, c2, t1 ++ t2)
        else (Raised e, c1, t1)
    | done => done
    end.

Declare Scope coroutine_scope.
Delimit Scope coroutine_scope with co.
Notation "x <- m ;; k" := (bind m (fun x => k))
  (at level 100, m at next level, right associativity) : coroutine_scope.
Notation "m ;; k" := (bind m (fun _ => k))
  (at level 100, right associativity) : coroutine_scope.

Definition result {A} (r : outcome A * connection * list event) : outcome A :=
  fst (fst r).
Definition final {A} (r : outcome A * connection * list event) : connection :=
  snd (fst r).
Definition events {A} (r : outcome A * connection * list event) : list event :=
  snd r.

(** [self.transport.write(data)] *)
Definition transport_write (data : list byte) : M unit :=
  fun c =>
    let tr := transport c in
    (Returned tt,
     mkConnection (state c) (opening_handshake c)
                  (mkTransport (written tr ++ [data]) (close_calls tr))
                  (stream c),
     [TransportWrite data]).

(** [self.transport.close()] *)
Definition transport_close : M unit :=
  fun c =>
    let tr := transport c in
    (Returned tt,
     mkConnection (state c) (opening_handshake c)
                  (mkTransport (written tr) (S (close_calls tr)))
                  (stream c),
     [TransportClose]).

(** [self.state = s] *)
Definition set_state (s : string) : M unit :=
  fun c =>
    (Returned tt,
     mkConnection s (opening_handshake c) (transport c) (stream c),
     [SetState s]).

(** [self.opening_handshake.set_result(v)]: a future is resolved once; a
    second [set_result] raises [InvalidStateError]. *)
Definition opening_handshake_set_result (v : bool) : M unit :=
  fun c =>
    match opening_handshake c with
    | None =>
        (Returned tt,
         mkConnection (state c) (Some v) (transport c) (stream c),
         [SetResult v])
    | Some _ => (Raised InvalidStateError, c, [SetResult v])
    end.

(** A plain call of a function that returns or raises. *)
Definition call {A} (r : outcome A) : M A := fun c => (r, c, []).

(** [logger.warning(msg, exc_info=True)] inside an [except] clause. *)
Definition logger_warning (msg : string) (exc : exn) : M unit :=
  fun c => (Returned tt, c, [LogWarning msg exc]).

(** ** websockets.http and websockets.handshake *)

(** Modelled from the spec: the header mapping that [read_request] of
    [websockets/http.py] returns (that file is not part of the sources):
    header name to header value, looked up case-insensitively, the last
    value winning on duplicates. *)
Definition headers : Type := list (string * string).

Definition headers_lookup (hs : headers) (k : string) : option string :=
  fold_left
    (fun acc nv => if (lower (fst nv) =? lower k)%string then Some (snd nv) else acc)
    hs None.

(** [headers.get(k, default)] *)
Definition headers_get (hs : headers) (k default : string) : string :=
  match headers_lookup hs k with
  | Some v => v
  | None => default
  end.

Definition GUID : string := "258EAFA5-E914-47DA-95CA-C5AB0DC85B11".

(** Modelled from the spec: the Accept-Token Calculator of
    [websockets/handshake.py] (not part of the sources): concatenate the key
    with the protocol GUID, take the SHA-1 digest of the bytes of the
    concatenation, base64-encode the digest. *)
Definition accept (key : string) : string :=
  decode (Base64.b64encode (SHA1.digest (encode (key ++ GUID)%string))).

(** Modelled from the spec: the Request Validator [check_request] of
    [websockets/handshake.py] (not part of the sources).  Given the header
    lookup (empty string if absent): the [Upgrade] header must name the
    WebSocket protocol, case-insensitively; the [Sec-WebSocket-Key] header
    must be present and non-empty; optionally, [Sec-WebSocket-Version] must
    be 13.  It returns the raw key or fails with a handshake error. *)
Definition check_request (require_version : bool)
    (get_header : string -> string) : outcome string :=
  if negb (lower (get_header "Upgrade") =? "websocket")%string
  then Raised (InvalidHandshake "Upgrade header does not name websocket")
  else
    let key := get_header "Sec-WebSocket-Key" in
    if (key =? "")%string
    then Raised (InvalidHandshake "Sec-WebSocket-Key header is missing")
    else if require_version
              && negb (get_header "Sec-WebSocket-Version" =? "13")%string
    then Raised (InvalidHandshake "Sec-WebSocket-Version is not 13")
    else Returned key.

(** Modelled from the spec: the Response Builder [build_response] of
    [websockets/handshake.py] (not part of the sources).  It reports the
    headers of the 101 response through the [set_header] callback, which
    updates the response under construction: [Upgrade: websocket],
    [Connection: Upgrade], [Sec-WebSocket-Accept: <token>], in this order. *)
Definition build_response {R : Type}
    (set_header : string -> string -> R -> R) (key : string) (r : R) : R :=
  set_header "Sec-WebSocket-Accept" (accept key)
    (set_header "Connection" "Upgrade"
      (set_header "Upgrade" "websocket" r)).

(** ** websockets.protocol *)

(** A transport nothing was written to and nobody closed. *)
Definition fresh_transport : transport_t := mkTransport [] 0.

(** Modelled from the spec: the constructor of the base class
    [WebSocketCommonProtocol] of [websockets/protocol.py] (not part of the
    sources).  A connection is created with its handshake-completion signal
    unresolved and before any transport is attached; its [state] is the
    class attribute ['CONNECTING'] of [WebSocketServerProtocol]. *)
Definition WebSocketCommonProtocol_init : connection :=
  mkConnection "CONNECTING" None fresh_transport [].

(** Modelled from the spec: [WebSocketCommonProtocol.connection_made] of
    [websockets/protocol.py] (not part of the sources).  The connection
    takes the accepted transport, which it owns for writing and closing,
    and the stream of the bytes the peer sends. *)
Definition WebSocketCommonProtocol_connection_made (c : connection)
    (tr : transport_t) (input : list byte) : connection :=
  mkConnection (state c) (opening_handshake c) tr input.

(** ** websockets.server *)

Section Server.

(** [USER_AGENT] of [websockets/http.py]. *)
Variable USER_AGENT : string.

(** [read_request] of [websockets/http.py]: from the bytes of the stream,
    the request's URI and headers, or an exception; with what is left of
    the stream. *)
Variable read_request :
  list byte -> outcome (string * headers) * list byte.

(** Whether the validator insists on [Sec-WebSocket-Version: 13]. *)
Variable require_version : bool.

(** [WebSocketCommonProtocol.close]: the closing handshake of the framing
    protocol, opaque: it may change the connection, return or raise. *)
Variable close : connection -> outcome unit * connection.

(** [yield from read_request(self.stream)] *)
Definition call_read_request : M (string * headers) :=
  fun c =>
    let '(r, rest) := read_request (stream c) in
    (r, mkConnection (state c) (opening_handshake c) (transport c) rest,
     [ReadRequest]).

(** [set_header = lambda k, v: response.append('{}: {}'.format(k, v))] *)
Definition set_header (k v : string) (response : list string) : list string :=
  response ++ [(k ++ ": " ++ v)%string].

(** The response of [handshake], from the status line to the encoded
    bytes. *)
Definition response_bytes (key : string) : list byte :=
  let response := ["HTTP/1.1 101 Switching Protocols"] in
  let response := set_header "Server" USER_AGENT response in
  let response := build_response set_header key response in
  let response := response ++ [CRLF] in
  encode (join CRLF response).

(** [WebSocketServerProtocol.handshake] *)
Definition handshake : M string :=
  (uh <- try_except call_read_request
           (fun exc => raise (InvalidHandshakeFrom "Malformed HTTP message" exc));;
   let uri := fst uh in
   let headers := snd uh in
   let get_header := fun k => headers_get headers k "" in
   key <- call (check_request require_version get_header);;
   let response := response_bytes key in
   transport_write response;;
   set_state "OPEN";;
   opening_handshake_set_result true;;
   ret uri)%co.

(** [yield from self.ws_handler(self, uri)] *)
Definition call_ws_handler (ws_handler : option handler_fn) (uri : string)
  : M unit :=
  match ws_handler with
  | Some h => fun c => let '(r, c') := h uri c in (r, c', [CallHandler uri])
  | None => raise (TypeError "'NoneType' object is not callable")
  end.

(** [yield from self.close()] *)
Definition call_close : M unit :=
  fun c => let '(r, c') := close c in (r, c', [CallClose]).

(** The [try] block of [WebSocketServerProtocol.handler]. *)
Definition handler_body (ws_handler : option handler_fn) : M unit :=
  (match ws_handler with
   | None => raise (NotImplementedError "No handler defined")
   | Some _ => ret tt
   end;;
   uri <- handshake;;
   call_ws_handler ws_handler uri;;
   call_close)%co.

(** [WebSocketServerProtocol.handler] *)
Definition handler (ws_handler : option handler_fn) : M unit :=
  try_except (handler_body ws_handler)
    (fun exc =>
       (logger_warning "Exception in connection handler" exc;;
        transport_close;;
        ret tt)%co).

(** The class: the handler given to the constructor and the attributes of
    the instance. *)
Record WebSocketServerProtocol : Type := mkProtocol {
  ws_handler : option handler_fn;
  self : connection
}.

(** [WebSocketServerProtocol.__init__(ws_handler=None)]: it stores the
    handler, whatever it is, and runs the constructor of the base class. *)
Definition init (ws_handler : option handler_fn)
  : outcome WebSocketServerProtocol :=
  Returned (mkProtocol ws_handler WebSocketCommonProtocol_init).

(** [WebSocketServerProtocol.connection_made(transport)]: the base class
    takes the transport, then [tulip.async(self.handler())] schedules the
    task of the connection.  The value is the run of that task: what it
    returns or raises is kept by the task and never reaches the caller of
    [connection_made]. *)
Definition connection_made (p : WebSocketServerProtocol)
    (tr : transport_t) (input : list byte)
  : outcome unit * connection * list event :=
  handler (ws_handler p)
    (WebSocketCommonProtocol_connection_made (self p) tr input).

(** The event loop's [create_server(protocol_factory, host, port)]. *)
Variable Server : Type.
Variable create_server :
  (unit -> outcome WebSocketServerProtocol) ->
  option string -> option N -> outcome Server.

(** [not x] for a tuple or list [x]. *)
Definition is_empty {A} (x : list A) : bool :=
  match x with [] => true | _ => false end.

(** [assert cond, msg]: the statement is compiled only when [__debug__] is
    true, the interpreter's default; under [python -O] it is removed and
    nothing is checked. *)
Definition assert_fails (debug cond : bool) : bool := debug && negb cond.

(** [serve(ws_handler, host, port, *, protocols=(), extensions=())] with
    the default [klass]; [debug] is the interpreter's [__debug__].  The body
    of the coroutine runs from its first statement when the coroutine is
    first run; the two [assert] statements come before its only
    [yield from], the call of [create_server]. *)
Definition serve (debug : bool) (ws_handler : option handler_fn)
    (host : option string) (port : option N)
    (protocols extensions : list string)
  : outcome Server * list event :=
  if assert_fails debug (is_empty protocols)
  then (Raised (AssertionError "protocols aren't supported"), [])
  else if assert_fails debug (is_empty extensions)
  then (Raised (AssertionError "extensions aren't supported"), [])
  else (create_server (fun _ => init ws_handler) host port,
        [CreateServer host port]).

End Server.

(** ** Measures on a trace *)

(** The data of the [transport.write] calls of a trace, in order. *)
Fixpoint writes (evs : list event) : list (list byte) :=
  match evs with
  | [] => []
  | TransportWrite data :: rest => data :: writes rest
  | _ :: rest => writes rest
  end.

(** How many times a trace calls [transport.close()]. *)
Fixpoint transport_close_count (evs : list event) : nat :=
  match evs with
  | [] => 0
  | TransportClose :: rest => S (transport_close_count rest)
  | _ :: rest => transport_close_count rest
  end.

(** Whether an event sets [state] or resolves the [opening_handshake]
    future. *)
Definition opens (ev : event) : bool :=
  match ev with
  | SetState _ | SetResult _ => true
  | _ => false
  end.

(** Whether an event is the closing handshake [self.close()]. *)
Definition is_call_close (ev : event) : bool :=
  match ev with
  | CallClose => true
  | _ => false
  end.

(** The connection after [transport.close()]. *)
Definition closed_once (c : connection) : connection :=
  mkConnection (state c) (opening_handshake c)
    (mkTransport (written (transport c)) (S (close_calls (transport c))))
    (stream c).

(** The connection once the request has been read off the stream. *)
Definition with_stream (c : connection) (rest : list byte) : connection :=
  mkConnection (state c) (opening_handshake c) (transport c) rest.

(** The connection after a handshake that wrote [data]. *)
Definition opened (c : connection) (data rest : list byte) : connection :=
  mkConnection "OPEN" (Some true)
    (mkTransport (written (transport c) ++ [data]) (close_calls (transport c)))
    rest.

(** The ways a connection's task can go. *)
Inductive exit_path : Type :=
| NoHandler
| HandshakeFailure (e : exn)
| HandlerFailure (e : exn)
| ClosingFailure (e : exn)
| Completed.

(** Which way the task of a connection goes, read off the collaborators'
    outcomes: the handshake on the accepted connection, then the user
    handler on the connection the handshake leaves, then the closing
    handshake on the connection the handler leaves. *)
Definition exit_path_of (USER_AGENT : string)
    (read_request : list byte -> outcome (string * headers) * list byte)
    (require_version : bool)
    (close : connection -> outcome unit * connection)
    (ws_handler : option handler_fn) (c : connection) : exit_path :=
  match ws_handler with
  | None => NoHandler
  | Some h =>
      match handshake USER_AGENT read_request require_version c with
      | (Raised e, _, _) => HandshakeFailure e
      | (Returned uri, c1, _) =>
          match h uri c1 with
          | (Raised e, _) => HandlerFailure e
          | (Returned _, c2) =>
              match close c2 with
              | (Raised e, _) => ClosingFailure e
              | (Returned _, _) => Completed
              end
          end
      end
  end.

(** The trace of a handshake that got as far as its response. *)
Definition handshake_trace (USER_AGENT key : string) : list event :=
  [ReadRequest; TransportWrite (response_bytes USER_AGENT key);
   SetState "OPEN"; SetResult true].

(** A malformed request: reading the request off the stream raises [e]. *)
Definition malformed_request
    (read_request : list byte -> outcome (string * headers) * list byte)
    (c : connection) (e : exn) : Prop :=
  exists rest, read_request (stream c) = (Raised e, rest).

(** An invalid handshake: the request is read and the validator raises
    [e]. *)
Definition invalid_handshake
    (read_request : list byte -> outcome (string * headers) * list byte)
    (require_version : bool) (c : connection) (e : exn) : Prop :=
  exists uri hs rest,
    read_request (stream c) = (Returned (uri, hs), rest)
    /\ check_request require_version (fun k => headers_get hs k "") = Raised e.

(** A run that ends by closing the transport, once, and returns. *)
Definition torn_down (run : outcome unit * connection * list event) : Prop :=
  transport_close_count (events run) = 1
  /\ (exists before, events run = before ++ [TransportClose])
  /\ result run = Returned tt.

(** A run in which the task never calls [transport.close()] itself. *)
Definition left_open (run : outcome unit * connection * list event)
    (r : outcome unit) : Prop :=
  transport_close_count (events run) = 0 /\ result run = r.

(** ** Sample collaborators *)

Module Sample.

Definition user_agent : string := "Python/3.3 websockets/0.1".

(** The opening request of RFC 6455, section 1.3. *)
Definition request : string * headers :=
  ("/chat",
   [("Host", "server.example.com");
    ("Upgrade", "websocket");
    ("Connection", "Upgrade");
    ("Sec-WebSocket-Key", "dGhlIHNhbXBsZSBub25jZQ==");
    ("Origin", "http://example.com");
    ("Sec-WebSocket-Version", "13")]).

(** The same request without its key. *)
Definition request_without_key : string * headers :=
  ("/chat",
   [("Host", "server.example.com");
    ("Upgrade", "websocket");
    ("Connection", "Upgrade");
    ("Sec-WebSocket-Version", "13")]).

Definition read_ok (input : list byte)
  : outcome (string * headers) * list byte :=
  (Returned request, []).

Definition read_no_key (input : list byte)
  : outcome (string * headers) * list byte :=
  (Returned request_without_key, []).

Definition read_malformed (input : list byte)
  : outcome (string * headers) * list byte :=
  (Raised (OtherException "ValueError"), []).

(** A handler that returns at once, one that raises. *)
Definition quiet_handler : handler_fn := fun _ c => (Returned tt, c).
Definition failing_handler : handler_fn :=
  fun _ c => (Raised (OtherException "RuntimeError"), c).

(** A closing handshake that completes without touching the transport. *)
Definition close_ok (c : connection) : outcome unit * connection :=
  (Returned tt, c).

(** A connection just accepted. *)
Definition accepted : connection :=
  mkConnection "CONNECTING" None fresh_transport [].

(** An event loop that binds nothing and hands back the factory's
    protocol. *)
Definition create_server
    (factory : unit -> outcome WebSocketServerProtocol)
    (host : option string) (port : option N)
  : outcome WebSocketServerProtocol :=
  factory tt.

End Sample.

(** ** More measures on a trace, more collaborators *)

(** The URIs the user handler is called with, in order. *)
Fixpoint handler_calls (evs : list event) : list string :=
  match evs with
  | [] => []
  | CallHandler uri :: rest => uri :: handler_calls rest
  | _ :: rest => handler_calls rest
  end.

(** The warnings a trace logs: message and exception, in order. *)
Fixpoint warnings (evs : list event) : list (string * exn) :=
  match evs with
  | [] => []
  | LogWarning msg exc :: rest => (msg, exc) :: warnings rest
  | _ :: rest => warnings rest
  end.

(** How many times a trace starts the closing handshake. *)
Definition closing_calls (evs : list event) : nat :=
  List.length (filter is_call_close evs).

(** The user handler leaves [transport.close()] to the server: it returns
    or raises with the transport closed as many times as it found it. *)
Definition handler_keeps_transport (h : handler_fn) : Prop :=
  forall uri c,
    close_calls (transport (snd (h uri c))) = close_calls (transport c).

(** Modelled from the spec: the closing handshake [close] of the common
    protocol in [websockets/protocol.py] (not part of the sources).  The
    connection goes from CLOSING to CLOSED "once the closing handshake
    completes and the transport is released" (and [serve] documents that
    the server "performs the closing handshake and closes the connection"):
    a closing handshake that completes has closed the transport, once; one
    that raises has not. *)
Definition close_releases_transport
    (close : connection -> outcome unit * connection) : Prop :=
  forall c,
    close_calls (transport (snd (close c)))
    = match fst (close c) with
      | Returned _ => S (close_calls (transport c))
      | Raised _ => close_calls (transport c)
      end.

Module Scenario.

(** A closing handshake that completes and releases the transport. *)
Definition close_releasing (c : connection) : outcome unit * connection :=
  (Returned tt, closed_once c).

(** A handler that ends the process: [sys.exit()] raises [SystemExit]. *)
Definition exiting_handler : handler_fn :=
  fun _ c => (Raised (NonException "SystemExit"), c).

(** The process is interrupted while the request is being read. *)
Definition read_interrupted (input : list byte)
  : outcome (string * headers) * list byte :=
  (Raised (NonException "KeyboardInterrupt"), input).

(** The peer resets the connection during the closing handshake. *)
Definition close_reset (c : connection) : outcome unit * connection :=
  (Raised (OtherException "ConnectionResetError"), c).

End Scenario.

(** ** The task when the transport and the logger can raise *)

(** Which calls of [transport.write], [transport.close] and
    [logger.warning] raise, and what they raise: a call that does not raise
    does what it does in [transport_write], [transport_close] and
    [logger_warning]; a call that raises leaves the transport as it is. *)
Record faults : Type := mkFaults {
  write_fault : list byte -> transport_t -> option exn;
  close_fault : transport_t -> option exn;
  warning_fault : string -> exn -> option exn
}.

Definition no_faults : faults :=
  mkFaults (fun _ _ => None) (fun _ => None) (fun _ _ => None).

(** [self.transport.write(data)] *)
Definition transport_write_or (f : faults) (data : list byte) : M unit :=
  fun c =>
    match write_fault f data (transport c) with
    | None => transport_write data c
    | Some e => (Raised e, c, [TransportWrite data])
    end.

(** [self.transport.close()] *)
Definition transport_close_or (f : faults) : M unit :=
  fun c =>
    match close_fault f (transport c) with
    | None => transport_close c
    | Some e => (Raised e, c, [TransportClose])
    end.

(** [logger.warning(msg, exc_info=True)] *)
Definition logger_warning_or (f : faults) (msg : string) (exc : exn)
  : M unit :=
  fun c =>
    match warning_fault f msg exc with
    | None => logger_warning msg exc c
    | Some e => (Raised e, c, [LogWarning msg exc])
    end.

Section FallibleServer.

Variable USER_AGENT : string.
Variable read_request : list byte -> outcome (string * headers) * list byte.
Variable require_version : bool.
Variable close : connection -> outcome unit * connection.
Variable f : faults.

(** [WebSocketServerProtocol.handshake], statement by statement as
    [handshake], over a transport whose [write] can raise. *)
Definition handshake_with : M string :=
  (uh <- try_except (call_read_request read_request)
           (fun exc => raise (InvalidHandshakeFrom "Malformed HTTP message" exc));;
   let uri := fst uh in
   let headers := snd uh in
   let get_header := fun k => headers_get headers k "" in
   key <- call (check_request require_version get_header);;
   let response := response_bytes USER_AGENT key in
   transport_write_or f response;;
   set_state "OPEN";;
   opening_handshake_set_result true;;
   ret uri)%co.

(** The [try] block of [WebSocketServerProtocol.handler]. *)
Definition handler_body_with (ws_handler : option handler_fn) : M unit :=
  (match ws_handler with
   | None => raise (NotImplementedError "No handler defined")
   | Some _ => ret tt
   end;;
   uri <- handshake_with;;
   call_ws_handler ws_handler uri;;
   call_close close)%co.

(** [WebSocketServerProtocol.handler], statement by statement as [handler],
    with a logger and a transport whose calls in the [except] clause can
    raise; what they raise there is not caught by the [try] that has just
    ended. *)
Definition handler_with (ws_handler : option handler_fn) : M unit :=
  try_except (handler_body_with ws_handler)
    (fun exc =>
       (logger_warning_or f "Exception in connection handler" exc;;
        transport_close_or f;;
        ret tt)%co).

(** [WebSocketServerProtocol.connection_made(transport)] *)
Definition connection_made_with (p : WebSocketServerProtocol)
    (tr : transport_t) (input : list byte)
  : outcome unit * connection * list event :=
  handler_with (ws_handler p)
    (WebSocketCommonProtocol_connection_made (self p) tr input).

End FallibleServer.

Module Faults.

(** The peer is gone: [transport.write] raises. *)
Definition broken_pipe : faults :=
  mkFaults (fun _ _ => Some (OtherException "BrokenPipeError"))
           (fun _ => None) (fun _ _ => None).

(** The socket is already invalid: [transport.close] raises. *)
Definition bad_socket : faults :=
  mkFaults (fun _ _ => None)
           (fun _ => Some (OtherException "OSError")) (fun _ _ => None).

End Faults.

(** * Properties *)

(** ** Published test vectors (FIPS 180, RFC 4648) *)

Example sha1_abc :
  SHA1.hexdigest (encode "abc") = "a9993e364706816aba3e25717850c26c9cd0d89d".
Proof. vm_compute. reflexivity. Qed.

Example sha1_empty :
  SHA1.hexdigest (encode "") = "da39a3ee5e6b4b0d3255bfef95601890afd80709".
Proof. vm_compute. reflexivity. Qed.

Example sha1_two_blocks :
  SHA1.hexdigest
    (encode "abcdbcdecdefdefgefghfghighijhijkijkljklmklmnlmnomnopnopq")
  = "84983e441c3bd26ebaae4aa1f95129e5e54670f1".
Proof. vm_compute. reflexivity. Qed.

Example b64_foobar :
  map (fun s => decode (Base64.b64encode (encode s)))
      [""; "f"; "fo"; "foo"; "foob"; "fooba"; "foobar"]
  = [""; "Zg=="; "Zm8="; "Zm9v"; "Zm9vYg=="; "Zm9vYmE="; "Zm9vYmFy"].
Proof. vm_compute. reflexivity. Qed.

(** ** The accept token *)

(** C2: for every key, the Accept-Token Calculator returns
    base64(SHA1(key ++ GUID)); equal keys give equal tokens; and the key
    "dGhlIHNhbXBsZSBub25jZQ==" gives "s3pPLMBiTxaQ9kYGzzhZRbK+xOo=". *)
Theorem accept_token (key key' : string) :
  accept key
  = decode (Base64.b64encode
              (SHA1.digest (encode (key ++ "258EAFA5-E914-47DA-95CA-C5AB0DC85B11")%string)))
  /\ (key = key' -> accept key = accept key')
  /\ accept "dGhlIHNhbXBsZSBub25jZQ==" = "s3pPLMBiTxaQ9kYGzzhZRbK+xOo=".
Proof.
  split; [reflexivity |].
  split; [intros ->; reflexivity |].
  vm_compute. reflexivity.
Qed.

Lemma accept_token_witness :
  accept "x3JJHMbDL1EzLkh9GBhXDw==" = "HSmrc0sMlYUkAGmm5OPpG2HaGWk=".
Proof.
  transitivity (accept "x3JJHMbDL1EzLkh9GBhXDw==").
  - apply (proj1 (proj2 (accept_token "x3JJHMbDL1EzLkh9GBhXDw=="
                                      "x3JJHMbDL1EzLkh9GBhXDw=="))).
    reflexivity.
  - vm_compute. reflexivity.
Defined.

(** ** The request validator and the response *)

Lemma headers_get_absent hs k d :
  headers_lookup hs k = None -> headers_get hs k d = d.
Proof. unfold headers_get. intros ->. reflexivity. Qed.

Lemma check_request_raises_InvalidHandshake rv get e :
  check_request rv get = Raised e -> exists msg, e = InvalidHandshake msg.
Proof.
  unfold check_request.
  destruct (negb _); [intros [= <-]; eauto |].
  destruct (String.eqb _ _); [intros [= <-]; eauto |].
  destruct (_ && _); [intros [= <-]; eauto | discriminate].
Qed.

Lemma check_request_rejects rv get :
  get "Sec-WebSocket-Key" = "" \/ lower (get "Upgrade") <> "websocket" ->
  exists msg, check_request rv get = Raised (InvalidHandshake msg).
Proof.
  unfold check_request.
  destruct (String.eqb (lower (get "Upgrade")) "websocket") eqn:E; cbn [negb].
  - intros [H | H].
    + rewrite H. cbn. eauto.
    + apply String.eqb_eq in E. contradiction.
  - eauto.
Qed.

Lemma check_request_accepts rv get key :
  check_request rv get = Returned key ->
  key = get "Sec-WebSocket-Key" /\ key <> ""
  /\ lower (get "Upgrade") = "websocket".
Proof.
  unfold check_request.
  destruct (String.eqb (lower (get "Upgrade")) "websocket") eqn:E; cbn [negb];
    [| discriminate].
  destruct (String.eqb (get "Sec-WebSocket-Key") "") eqn:K; [discriminate |].
  destruct (_ && _); [discriminate |].
  intros [= <-]. apply String.eqb_eq in E. apply String.eqb_neq in K. auto.
Qed.

(** The bytes [handshake] writes are the whole 101 response: status line,
    [Server], [Upgrade], [Connection], [Sec-WebSocket-Accept], empty line. *)
Lemma response_bytes_101 ua key :
  response_bytes ua key
  = encode ("HTTP/1.1 101 Switching Protocols" ++ CRLF
            ++ "Server: " ++ ua ++ CRLF
            ++ "Upgrade: websocket" ++ CRLF
            ++ "Connection: Upgrade" ++ CRLF
            ++ "Sec-WebSocket-Accept: " ++ accept key ++ CRLF ++ CRLF)%string.
Proof.
  unfold response_bytes, build_response, set_header.
  cbn [app join String.append].
  reflexivity.
Qed.

(** ** Traces *)

Lemma writes_app evs evs' : writes (evs ++ evs') = writes evs ++ writes evs'.
Proof.
  induction evs as [| ev evs IH]; [reflexivity |].
  destruct ev; cbn; rewrite IH; reflexivity.
Qed.

Lemma transport_close_count_app evs evs' :
  transport_close_count (evs ++ evs')
  = transport_close_count evs + transport_close_count evs'.
Proof.
  induction evs as [| ev evs IH]; [reflexivity |].
  destruct ev; cbn; rewrite IH; reflexivity.
Qed.

(** ** The handshake and the task, run symbolically *)

Section ServerProperties.

Variable USER_AGENT : string.
Variable read_request : list byte -> outcome (string * headers) * list byte.
Variable require_version : bool.
Variable close : connection -> outcome unit * connection.

Local Abbreviation run_handshake :=
  (handshake USER_AGENT read_request require_version).
Local Abbreviation run_body :=
  (handler_body USER_AGENT read_request require_version close).
Local Abbreviation run_handler :=
  (handler USER_AGENT read_request require_version close).
Local Abbreviation run_connection_made :=
  (connection_made USER_AGENT read_request require_version close).
Local Abbreviation path_of :=
  (exit_path_of USER_AGENT read_request require_version close).
Local Abbreviation response := (response_bytes USER_AGENT).
Local Abbreviation trace_of := (handshake_trace USER_AGENT).
Local Abbreviation check hs :=
  (check_request require_version (fun k => headers_get hs k "")).
Local Abbreviation warning :=
  (LogWarning "Exception in connection handler").

(** What [handshake] does, by the outcome of each of its calls. *)
Lemma handshake_run c :
  run_handshake c =
  match read_request (stream c) with
  | (Raised e, rest) =>
      (Raised (if is_Exception e
               then InvalidHandshakeFrom "Malformed HTTP message" e
               else e),
       with_stream c rest, [ReadRequest])
  | (Returned (uri, hs), rest) =>
      match check hs with
      | Raised e => (Raised e, with_stream c rest, [ReadRequest])
      | Returned key =>
          match opening_handshake c with
          | None =>
              (Returned uri, opened c (response key) rest,
               trace_of key)
          | Some v =>
              (Raised InvalidStateError,
               mkConnection "OPEN" (Some v)
                 (mkTransport (written (transport c) ++ [response key])
                              (close_calls (transport c)))
                 rest,
               trace_of key)
          end
      end
  end.
Proof.
  unfold handshake, bind, try_except, call_read_request, call,
    raise, ret, transport_write, set_state, opening_handshake_set_result.
  destruct (read_request (stream c)) as [[[uri hs] | e] rest].
  - cbn [fst snd app]. destruct (check hs) as [key | e]; [| reflexivity].
    cbn [opening_handshake state transport stream written close_calls].
    destruct (opening_handshake c); reflexivity.
  - destruct (is_Exception e); reflexivity.
Qed.

(** What the [try] block does once a handler is configured. *)
Lemma handler_body_run h c :
  run_body (Some h) c =
  match run_handshake c with
  | (Raised e, c1, t1) => (Raised e, c1, t1)
  | (Returned uri, c1, t1) =>
      match h uri c1 with
      | (Raised e, c2) => (Raised e, c2, t1 ++ [CallHandler uri])
      | (Returned _, c2) =>
          let '(r, c3) := close c2 in (r, c3, t1 ++ [CallHandler uri; CallClose])
      end
  end.
Proof.
  unfold handler_body, bind, ret, call_ws_handler, call_close.
  cbn [app].
  destruct (run_handshake c) as [[[uri | e] c1] t1]; [| reflexivity].
  destruct (h uri c1) as [[[] | e] c2]; [| reflexivity].
  destruct (close c2) as [r c3]. reflexivity.
Qed.

(** What the [except] clause adds. *)
Lemma handler_run ws c :
  run_handler ws c =
  match run_body ws c with
  | (Raised e, c1, t1) =>
      if is_Exception e
      then (Returned tt, closed_once c1, t1 ++ [warning e; TransportClose])
      else (Raised e, c1, t1)
  | done => done
  end.
Proof.
  unfold handler, try_except.
  destruct (run_body ws c) as [[[[] | e] c1] t1]; [reflexivity |].
  destruct (is_Exception e); reflexivity.
Qed.

Lemma handler_no_handler c :
  run_handler None c
  = (Returned tt, closed_once c,
     [warning (NotImplementedError "No handler defined"); TransportClose]).
Proof. reflexivity. Qed.

(** A failed handshake has read the request and done nothing else. *)
Lemma handshake_raised c e c1 t1 :
  run_handshake c = (Raised e, c1, t1) ->
  (t1 = [ReadRequest] /\ state c1 = state c
   /\ opening_handshake c1 = opening_handshake c
   /\ transport c1 = transport c)
  \/ (e = InvalidStateError /\ exists key, t1 = trace_of key).
Proof.
  rewrite handshake_run.
  destruct (read_request (stream c)) as [[[uri hs] | e0] rest].
  - destruct (check hs) as [key | e0].
    + destruct (opening_handshake c); [| discriminate].
      intros [= <- <- <-]. right. eauto.
    + intros [= <- <- <-]. left. auto.
  - intros [= <- <- <-]. left. auto.
Qed.

Lemma handshake_returned c uri c1 t1 :
  run_handshake c = (Returned uri, c1, t1) ->
  exists hs key rest,
    read_request (stream c) = (Returned (uri, hs), rest)
    /\ check hs = Returned key
    /\ opening_handshake c = None
    /\ c1 = opened c (response key) rest
    /\ t1 = trace_of key.
Proof.
  rewrite handshake_run.
  destruct (read_request (stream c)) as [[[uri0 hs] | e0] rest];
    [| discriminate].
  destruct (check hs) as [key | e0] eqn:Hcheck; [| discriminate].
  destruct (opening_handshake c) eqn:Hfut; [discriminate |].
  intros [= <- <- <-]. exists hs, key, rest. auto.
Qed.

(** The handshake never closes the transport. *)
Lemma handshake_closes_nothing c :
  transport_close_count (events (run_handshake c)) = 0.
Proof.
  rewrite handshake_run.
  destruct (read_request (stream c)) as [[[uri hs] | e0] rest];
    [| reflexivity].
  destruct (check hs); [| reflexivity].
  destruct (opening_handshake c); reflexivity.
Qed.

(** ** The opening handshake *)

(** C4: in every successful run of [handshake], the request is read and
    validated, then the full 101 response is written to the transport,
    then [state] is set to ['OPEN'], then the [opening_handshake] future,
    pending until that point, is resolved; these are the only operations,
    in this order, and the call returns the URI of the request. *)
Theorem handshake_success_order c uri c' evs :
  run_handshake c = (Returned uri, c', evs) ->
  exists hs key rest,
    read_request (stream c) = (Returned (uri, hs), rest)
    /\ check hs = Returned key
    /\ evs = [ReadRequest; TransportWrite (response key);
              SetState "OPEN"; SetResult true]
    /\ response key
       = encode ("HTTP/1.1 101 Switching Protocols" ++ CRLF
                 ++ "Server: " ++ USER_AGENT ++ CRLF
                 ++ "Upgrade: websocket" ++ CRLF
                 ++ "Connection: Upgrade" ++ CRLF
                 ++ "Sec-WebSocket-Accept: " ++ accept key ++ CRLF
                 ++ CRLF)%string
    /\ opening_handshake c = None
    /\ written (transport c') = written (transport c) ++ [response key]
    /\ state c' = "OPEN"
    /\ opening_handshake c' = Some true.
Proof.
  intros Hrun.
  destruct (handshake_returned _ _ _ _ Hrun)
    as (hs & key & rest & Hread & Hcheck & Hfut & -> & ->).
  exists hs, key, rest.
  repeat split; auto using response_bytes_101.
Qed.

(** C5: when the request has no [Sec-WebSocket-Key] header, or its
    [Upgrade] header does not name the WebSocket protocol, the validator
    raises, [handshake] fails with it, and nothing is written to the
    transport: not by the handshake and not by the rest of the task. *)
Theorem bad_request_writes_nothing ws c uri hs rest :
  read_request (stream c) = (Returned (uri, hs), rest) ->
  headers_lookup hs "Sec-WebSocket-Key" = None
  \/ lower (headers_get hs "Upgrade" "") <> "websocket" ->
  (exists msg,
      check hs = Raised (InvalidHandshake msg)
      /\ result (run_handshake c) = Raised (InvalidHandshake msg))
  /\ writes (events (run_handshake c)) = []
  /\ writes (events (run_handler ws c)) = []
  /\ written (transport (final (run_handler ws c))) = written (transport c).
Proof.
  intros Hread Hbad.
  assert (Hrej : exists msg, check hs = Raised (InvalidHandshake msg)).
  { apply check_request_rejects. destruct Hbad as [Hkey | Hup]; [left | right].
    - apply headers_get_absent, Hkey.
    - exact Hup. }
  destruct Hrej as [msg Hcheck].
  assert (Hrun : run_handshake c
                 = (Raised (InvalidHandshake msg), with_stream c rest,
                    [ReadRequest])).
  { rewrite handshake_run, Hread, Hcheck. reflexivity. }
  split; [exists msg; rewrite Hrun; auto |].
  split; [rewrite Hrun; reflexivity |].
  destruct ws as [h |].
  - rewrite handler_run, handler_body_run, Hrun. cbn. auto.
  - rewrite handler_no_handler. cbn. auto.
Qed.

(** C10: when the handshake fails at the request (it cannot be read or
    parsed, or the validator rejects it), no operation of the task sets
    [state] or resolves the [opening_handshake] future: on a connection in
    state ['CONNECTING'] whose future is pending, the state is still
    ['CONNECTING'] and the future still pending when the handshake has
    failed and when the task has ended. *)
Theorem failed_handshake_never_opens h c e :
  malformed_request read_request c e
  \/ invalid_handshake read_request require_version c e ->
  state c = "CONNECTING" ->
  opening_handshake c = None ->
  (exists exc, result (run_handshake c) = Raised exc)
  /\ existsb opens (events (run_handshake c)) = false
  /\ state (final (run_handshake c)) = "CONNECTING"
  /\ opening_handshake (final (run_handshake c)) = None
  /\ existsb opens (events (run_handler (Some h) c)) = false
  /\ state (final (run_handler (Some h) c)) = "CONNECTING"
  /\ opening_handshake (final (run_handler (Some h) c)) = None.
Proof.
  intros Hfail Hstate Hfut.
  assert (Hrun : exists exc rest,
             run_handshake c = (Raised exc, with_stream c rest, [ReadRequest])).
  { rewrite handshake_run.
    destruct Hfail as [[rest Hread] | (uri & hs & rest & Hread & Hcheck)];
      rewrite Hread; [| rewrite Hcheck]; eauto. }
  destruct Hrun as (exc & rest & Hrun).
  rewrite handler_run, handler_body_run, Hrun.
  split; [exists exc; reflexivity |].
  destruct (is_Exception exc); cbn; repeat split; assumption.
Qed.

(** ** The task of a connection *)

(** C6: when the handshake fails on a malformed request or an invalid
    handshake, the exception is caught inside the task: the task has read
    the request, logs a warning with the exception, closes the transport
    and returns; nothing is raised out of it. *)
Theorem handshake_failure_contained h c e :
  (malformed_request read_request c e /\ is_Exception e = true)
  \/ invalid_handshake read_request require_version c e ->
  exists exc c1,
    run_handshake c = (Raised exc, c1, [ReadRequest])
    /\ (exc = InvalidHandshakeFrom "Malformed HTTP message" e
        \/ exists msg, exc = InvalidHandshake msg)
    /\ run_handler (Some h) c
       = (Returned tt, closed_once c1,
          [ReadRequest; warning exc; TransportClose])
    /\ close_calls (transport (final (run_handler (Some h) c)))
       = S (close_calls (transport c)).
Proof.
  intros [[[rest Hread] Hexc] | (uri & hs & rest & Hread & Hcheck)].
  - exists (InvalidHandshakeFrom "Malformed HTTP message" e),
      (with_stream c rest).
    assert (Hrun : run_handshake c
                   = (Raised (InvalidHandshakeFrom "Malformed HTTP message" e),
                      with_stream c rest, [ReadRequest])).
    { rewrite handshake_run, Hread, Hexc. reflexivity. }
    rewrite handler_run, handler_body_run, Hrun. cbn. auto.
  - destruct (check_request_raises_InvalidHandshake _ _ _ Hcheck) as [msg ->].
    exists (InvalidHandshake msg), (with_stream c rest).
    assert (Hrun : run_handshake c
                   = (Raised (InvalidHandshake msg), with_stream c rest,
                      [ReadRequest])).
    { rewrite handshake_run, Hread, Hcheck. reflexivity. }
    rewrite handler_run, handler_body_run, Hrun. cbn. eauto 6.
Qed.

(** C3, as the code has it: when the handshake completed and the user
    handler raises an exception, the task does not attempt the closing
    handshake ([close] is never called): it logs a warning with the
    exception, closes the transport and returns, raising nothing. *)
Theorem handler_failure_skips_closing h c uri c1 evs e c2 :
  run_handshake c = (Returned uri, c1, evs) ->
  h uri c1 = (Raised e, c2) ->
  is_Exception e = true ->
  run_handler (Some h) c
  = (Returned tt, closed_once c2,
     evs ++ [CallHandler uri; warning e; TransportClose])
  /\ existsb is_call_close (events (run_handler (Some h) c)) = false.
Proof.
  intros Hrun Hh He.
  assert (Heq : run_handler (Some h) c
                = (Returned tt, closed_once c2,
                   evs ++ [CallHandler uri; warning e; TransportClose])).
  { rewrite handler_run, handler_body_run, Hrun, Hh, He.
    rewrite <- app_assoc. reflexivity. }
  split; [exact Heq |].
  rewrite Heq.
  destruct (handshake_returned _ _ _ _ Hrun)
    as (hs & key & rest & _ & _ & _ & _ & ->).
  reflexivity.
Qed.

Lemma torn_down_after_warning c1 t1 e :
  transport_close_count t1 = 0 ->
  torn_down (Returned tt, c1, t1 ++ [warning e; TransportClose]).
Proof.
  intros Hcount. unfold torn_down. cbn [events result fst snd].
  split; [rewrite transport_close_count_app, Hcount; reflexivity |].
  split; [| reflexivity].
  exists (t1 ++ [warning e]). rewrite <- app_assoc. reflexivity.
Qed.

Lemma left_open_intro r c1 t1 extra :
  transport_close_count t1 = 0 ->
  transport_close_count extra = 0 ->
  left_open (r, c1, t1 ++ extra) r.
Proof.
  intros Hcount Hextra. unfold left_open. cbn [events result fst snd].
  rewrite transport_close_count_app, Hcount, Hextra. auto.
Qed.

(** The handshake never closes the transport. *)
Lemma handshake_keeps_close_calls c :
  close_calls (transport (final (run_handshake c)))
  = close_calls (transport c).
Proof.
  rewrite handshake_run.
  destruct (read_request (stream c)) as [[[uri hs] | e0] rest];
    [| reflexivity].
  destruct (check hs); [| reflexivity].
  destruct (opening_handshake c); reflexivity.
Qed.

(** C1, as the code has it.  The task's own calls: on every path that an
    instance of [Exception] ends (no handler configured, handshake failure,
    handler failure, closing failure) the task calls [transport.close()]
    exactly once, as its last operation, and returns; when the handshake,
    the handler and the closing handshake all succeed it adds no call of its
    own; what is not an instance of [Exception] passes through it without a
    call.  The transport: when the user handler leaves the transport alone
    and the closing handshake releases it when it completes, the transport
    has been closed exactly once whenever the task returns, on the success
    path as on the failure paths, and has not been closed when the task
    lets through what is not an instance of [Exception]. *)
Theorem handler_teardown ws c :
  match path_of ws c with
  | NoHandler => torn_down (run_handler ws c)
  | HandshakeFailure e | HandlerFailure e | ClosingFailure e =>
      if is_Exception e
      then torn_down (run_handler ws c)
      else left_open (run_handler ws c) (Raised e)
  | Completed => left_open (run_handler ws c) (Returned tt)
  end
  /\ ((forall h, ws = Some h -> handler_keeps_transport h) ->
      close_releases_transport close ->
      match result (run_handler ws c) with
      | Returned _ =>
          close_calls (transport (final (run_handler ws c)))
          = S (close_calls (transport c))
      | Raised e =>
          is_Exception e = false
          /\ close_calls (transport (final (run_handler ws c)))
             = close_calls (transport c)
      end).
Proof.
  split.
  - destruct ws as [h |]; cbn [exit_path_of].
    + rewrite handler_run, handler_body_run.
      pose proof (handshake_closes_nothing c) as Hcount.
      destruct (run_handshake c) as [[[uri | e] c1] t1];
        cbn [events snd] in Hcount.
      * destruct (h uri c1) as [[[] | e] c2].
        -- destruct (close c2) as [[[] | e] c3].
           ++ apply left_open_intro; auto.
           ++ destruct (is_Exception e).
              ** apply torn_down_after_warning.
                 rewrite transport_close_count_app, Hcount. reflexivity.
              ** apply left_open_intro; auto.
        -- destruct (is_Exception e).
           ++ apply torn_down_after_warning.
              rewrite transport_close_count_app, Hcount. reflexivity.
           ++ apply left_open_intro; auto.
      * destruct (is_Exception e).
        -- apply torn_down_after_warning, Hcount.
        -- rewrite <- (app_nil_r t1). apply left_open_intro; auto.
    + rewrite handler_no_handler.
      apply (torn_down_after_warning _ [] _). reflexivity.
  - intros Hkeeps Hreleases.
    destruct ws as [h |]; [| rewrite handler_no_handler; reflexivity].
    specialize (Hkeeps h eq_refl).
    rewrite handler_run, handler_body_run.
    pose proof (handshake_keeps_close_calls c) as Hshake.
    destruct (run_handshake c) as [[[uri | e] c1] t1];
      cbn [final fst snd] in Hshake.
    + pose proof (Hkeeps uri c1) as Hh.
      destruct (h uri c1) as [[[] | e] c2]; cbn [fst snd] in Hh.
      * pose proof (Hreleases c2) as Hc.
        destruct (close c2) as [[[] | e] c3]; cbn [fst snd] in Hc.
        -- cbn. congruence.
        -- destruct (is_Exception e) eqn:He; cbn; [| split; [exact He |]];
             congruence.
      * destruct (is_Exception e) eqn:He; cbn; [| split; [exact He |]];
          congruence.
    + destruct (is_Exception e) eqn:He; cbn; [| split; [exact He |]];
        congruence.
Qed.


End ServerProperties.

(** ** Configuration *)

(** C7, as the code has it: constructing the protocol without a handler
    succeeds ([serve] then reaches [create_server] as with any handler); the
    missing handler is found at the start of the task of each connection,
    which raises [NotImplementedError], catches it, logs a warning and
    closes the transport, with no handshake and nothing raised out of the
    task. *)
Theorem missing_handler_found_per_connection
    USER_AGENT read_request require_version close
    (Server : Type) create_server debug host port c :
  init None = Returned (mkProtocol None WebSocketCommonProtocol_init)
  /\ serve Server create_server debug None host port [] []
     = (create_server (fun _ => init None) host port, [CreateServer host port])
  /\ handler USER_AGENT read_request require_version close None c
     = (Returned tt, closed_once c,
        [LogWarning "Exception in connection handler"
           (NotImplementedError "No handler defined");
         TransportClose]).
Proof. destruct debug; repeat split. Qed.

(** C8, as the code has it: with assertions enabled ([__debug__] true, the
    interpreter's default), when [protocols] or [extensions] is not empty
    [serve] raises an assertion error before it reaches [create_server],
    which is never called; without them ([python -O]) the two checks are
    gone and [serve] is the call of [create_server] whatever the two
    arguments are; when both are empty nothing is raised by the checks and
    [serve] is the call of [create_server] in either mode. *)
Theorem serve_rejects_negotiation
    (Server : Type) create_server debug ws host port protocols extensions :
  (debug = true ->
   protocols <> [] \/ extensions <> [] ->
   serve Server create_server debug ws host port protocols extensions
   = (Raised (AssertionError
                (if is_empty protocols
                 then "extensions aren't supported"
                 else "protocols aren't supported")), []))
  /\ (debug = false \/ (protocols = [] /\ extensions = []) ->
      serve Server create_server debug ws host port protocols extensions
      = (create_server (fun _ => init ws) host port,
         [CreateServer host port])).
Proof.
  split.
  - intros -> [Hp | He].
    + destruct protocols; [contradiction | reflexivity].
    + destruct protocols; [| reflexivity].
      destruct extensions; [contradiction | reflexivity].
  - intros [-> | [-> ->]]; [reflexivity |].
    destruct debug; reflexivity.
Qed.

(** ** Runs of the sample connections *)

Lemma serve_rejects_negotiation_witness :
  serve WebSocketServerProtocol Sample.create_server true
        (Some Sample.quiet_handler) None (Some 8765%N) ["chat"] []
  = (Raised (AssertionError "protocols aren't supported"), [])
  /\ serve WebSocketServerProtocol Sample.create_server true
           (Some Sample.quiet_handler) None (Some 8765%N) [] []
     = (Returned (mkProtocol (Some Sample.quiet_handler) Sample.accepted),
        [CreateServer None (Some 8765%N)]).
Proof.
  split.
  - apply (proj1 (serve_rejects_negotiation WebSocketServerProtocol
                    Sample.create_server true (Some Sample.quiet_handler)
                    None (Some 8765%N) ["chat"] [])).
    + reflexivity.
    + left. discriminate.
  - apply (proj2 (serve_rejects_negotiation WebSocketServerProtocol
                    Sample.create_server true (Some Sample.quiet_handler)
                    None (Some 8765%N) [] [])).
    right. split; reflexivity.
Defined.

Lemma handshake_success_order_witness :
  exists hs key rest,
    Sample.read_ok (stream Sample.accepted)
    = (Returned ("/chat", hs), rest)
    /\ check_request true (fun k => headers_get hs k "") = Returned key
    /\ events (handshake Sample.user_agent Sample.read_ok true Sample.accepted)
       = [ReadRequest;
          TransportWrite (response_bytes Sample.user_agent key);
          SetState "OPEN"; SetResult true]
    /\ accept key = "s3pPLMBiTxaQ9kYGzzhZRbK+xOo=".
Proof.
  destruct (handshake_success_order Sample.user_agent Sample.read_ok true
              Sample.accepted "/chat"
              (final (handshake Sample.user_agent Sample.read_ok true
                        Sample.accepted))
              (events (handshake Sample.user_agent Sample.read_ok true
                         Sample.accepted)))
    as (hs & key & rest & Hread & Hcheck & Hevs & _).
  - vm_compute. reflexivity.
  - exists hs, key, rest.
    repeat split; try assumption.
    injection Hread as <- _. injection Hcheck as <-.
    vm_compute. reflexivity.
Defined.

Lemma bad_request_writes_nothing_witness :
  writes (events (handler Sample.user_agent Sample.read_no_key true
                    Sample.close_ok (Some Sample.quiet_handler)
                    Sample.accepted)) = []
  /\ written (transport
                (final (handler Sample.user_agent Sample.read_no_key true
                          Sample.close_ok (Some Sample.quiet_handler)
                          Sample.accepted))) = [].
Proof.
  apply (proj2 (proj2
    (bad_request_writes_nothing Sample.user_agent Sample.read_no_key true
       Sample.close_ok (Some Sample.quiet_handler) Sample.accepted
       "/chat" (snd Sample.request_without_key) []
       eq_refl (or_introl eq_refl)))).
Defined.

Lemma failed_handshake_never_opens_witness :
  state (final (handler Sample.user_agent Sample.read_malformed true
                  Sample.close_ok (Some Sample.quiet_handler)
                  Sample.accepted)) = "CONNECTING"
  /\ opening_handshake
       (final (handler Sample.user_agent Sample.read_malformed true
                 Sample.close_ok (Some Sample.quiet_handler)
                 Sample.accepted)) = None.
Proof.
  apply (proj2 (proj2 (proj2 (proj2 (proj2
    (failed_handshake_never_opens Sample.user_agent Sample.read_malformed
       true Sample.close_ok Sample.quiet_handler Sample.accepted
       (OtherException "ValueError")
       (or_introl (ex_intro _ [] eq_refl)) eq_refl eq_refl)))))).
Defined.

Lemma handshake_failure_contained_witness :
  exists exc c1,
    handshake Sample.user_agent Sample.read_malformed true Sample.accepted
    = (Raised exc, c1, [ReadRequest])
    /\ result (handler Sample.user_agent Sample.read_malformed true
                 Sample.close_ok (Some Sample.quiet_handler) Sample.accepted)
       = Returned tt
    /\ close_calls
         (transport
            (final (handler Sample.user_agent Sample.read_malformed true
                      Sample.close_ok (Some Sample.quiet_handler)
                      Sample.accepted))) = 1.
Proof.
  destruct (handshake_failure_contained Sample.user_agent
              Sample.read_malformed true Sample.close_ok
              Sample.quiet_handler Sample.accepted
              (OtherException "ValueError")
              (or_introl (conj (ex_intro _ [] eq_refl) eq_refl)))
    as (exc & c1 & Hrun & _ & Hhandler & Hclosed).
  exists exc, c1.
  split; [exact Hrun |].
  split; [exact (f_equal result Hhandler) | exact Hclosed].
Defined.

Lemma handler_failure_skips_closing_witness :
  result (handler Sample.user_agent Sample.read_ok true Sample.close_ok
            (Some Sample.failing_handler) Sample.accepted) = Returned tt
  /\ existsb is_call_close
       (events (handler Sample.user_agent Sample.read_ok true Sample.close_ok
                  (Some Sample.failing_handler) Sample.accepted)) = false.
Proof.
  assert (Hshake :
            handshake Sample.user_agent Sample.read_ok true Sample.accepted
            = (Returned "/chat",
               final (handshake Sample.user_agent Sample.read_ok true
                        Sample.accepted),
               events (handshake Sample.user_agent Sample.read_ok true
                         Sample.accepted)))
    by (vm_compute; reflexivity).
  destruct (handler_failure_skips_closing Sample.user_agent Sample.read_ok
              true Sample.close_ok Sample.failing_handler Sample.accepted
              "/chat" _ _ (OtherException "RuntimeError") _
              Hshake eq_refl eq_refl)
    as [Hrun Hnone].
  split; [exact (f_equal result Hrun) | exact Hnone].
Defined.

Lemma handler_teardown_witness :
  close_calls
    (transport
       (final (handler Sample.user_agent Sample.read_ok true
                 Scenario.close_releasing (Some Sample.quiet_handler)
                 Sample.accepted))) = 1.
Proof.
  apply (proj2 (handler_teardown Sample.user_agent Sample.read_ok true
                  Scenario.close_releasing (Some Sample.quiet_handler)
                  Sample.accepted)).
  - intros h [= <-] uri c. reflexivity.
  - intros c. reflexivity.
Defined.


(** ** Where the code departs from the expected behaviour *)

(** C1: a connection whose handshake completes and whose handler ends the
    process with [SystemExit]: the exception leaves the task, which calls
    neither the closing handshake nor [transport.close()]; the transport has
    not been closed when the task terminates. *)
Lemma exiting_handler_leaves_transport_unclosed :
  exit_path_of Sample.user_agent Sample.read_ok true Scenario.close_releasing
    (Some Scenario.exiting_handler) Sample.accepted
  = HandlerFailure (NonException "SystemExit")
  /\ result (handler Sample.user_agent Sample.read_ok true
                Scenario.close_releasing (Some Scenario.exiting_handler)
                Sample.accepted)
     = Raised (NonException "SystemExit")
  /\ transport_close_count
       (events (handler Sample.user_agent Sample.read_ok true
                  Scenario.close_releasing (Some Scenario.exiting_handler)
                  Sample.accepted)) <> 1
  /\ close_calls
       (transport
          (final (handler Sample.user_agent Sample.read_ok true
                    Scenario.close_releasing (Some Scenario.exiting_handler)
                    Sample.accepted))) <> 1.
Proof.
  split; [vm_compute; reflexivity |].
  split; [vm_compute; reflexivity |].
  split; vm_compute; discriminate.
Qed.

(** C3: a connection whose handshake completes and whose handler raises: the
    trace of the task holds no call of the closing handshake. *)
Lemma failing_handler_run_has_no_closing_handshake :
  result (handshake Sample.user_agent Sample.read_ok true Sample.accepted)
  = Returned "/chat"
  /\ fst (Sample.failing_handler "/chat"
            (final (handshake Sample.user_agent Sample.read_ok true
                      Sample.accepted)))
     = Raised (OtherException "RuntimeError")
  /\ existsb is_call_close
       (events (handler Sample.user_agent Sample.read_ok true Sample.close_ok
                  (Some Sample.failing_handler) Sample.accepted)) <> true.
Proof.
  split; [vm_compute; reflexivity |].
  split; [reflexivity | vm_compute; discriminate].
Qed.

(** C8: under [python -O] a call of [serve] that asks for a subprotocol
    raises nothing and reaches [create_server]. *)
Lemma optimized_serve_accepts_protocols :
  serve WebSocketServerProtocol Sample.create_server false
        (Some Sample.quiet_handler) None (Some 8765%N) ["chat"] []
  = (Returned (mkProtocol (Some Sample.quiet_handler) Sample.accepted),
     [CreateServer None (Some 8765%N)]).
Proof. reflexivity. Qed.

(** C7: the constructor accepts a missing handler, and so does [serve]. *)
Lemma construction_without_handler_succeeds :
  init None = Returned (mkProtocol None Sample.accepted)
  /\ serve WebSocketServerProtocol Sample.create_server true None None None
           [] []
     = (Returned (mkProtocol None Sample.accepted), [CreateServer None None]).
Proof. split; reflexivity. Qed.

(** * Further properties of the task and the handshake *)

Lemma handler_calls_app evs evs' :
  handler_calls (evs ++ evs') = handler_calls evs ++ handler_calls evs'.
Proof.
  induction evs as [| ev evs IH]; [reflexivity |].
  destruct ev; cbn; rewrite IH; reflexivity.
Qed.

Lemma warnings_app evs evs' :
  warnings (evs ++ evs') = warnings evs ++ warnings evs'.
Proof.
  induction evs as [| ev evs IH]; [reflexivity |].
  destruct ev; cbn; rewrite IH; reflexivity.
Qed.

Lemma closing_calls_app evs evs' :
  closing_calls (evs ++ evs') = closing_calls evs + closing_calls evs'.
Proof.
  unfold closing_calls. rewrite filter_app, length_app. reflexivity.
Qed.

Lemma string_append_assoc (a b c : string) :
  ((a ++ b) ++ c)%string = (a ++ b ++ c)%string.
Proof.
  induction a as [| ch a IH]; [reflexivity |].
  cbn. rewrite IH. reflexivity.
Qed.

(** [join] of lines and a last [CRLF] element: every line gets its line end
    and an empty line follows (the [response.append] and [join] that end
    the construction of the response). *)
Theorem response_lines_terminated (lines : list string) :
  join CRLF (lines ++ [CRLF])
  = (join "" (map (fun l => l ++ CRLF) lines) ++ CRLF)%string.
Proof.
  induction lines as [| a [| b rest] IH].
  - reflexivity.
  - cbn [join map app]. rewrite string_append_assoc. reflexivity.
  - change (join CRLF ((a :: b :: rest) ++ [CRLF]))
      with (a ++ CRLF ++ join CRLF ((b :: rest) ++ [CRLF]))%string.
    rewrite IH.
    change (join "" (map (fun l => (l ++ CRLF)%string) (a :: b :: rest)))
      with ((a ++ CRLF) ++ "" ++
            join "" (map (fun l => (l ++ CRLF)%string) (b :: rest)))%string.
    cbn [String.append].
    rewrite !string_append_assoc. reflexivity.
Qed.

Section TaskProperties.

Variable USER_AGENT : string.
Variable read_request : list byte -> outcome (string * headers) * list byte.
Variable require_version : bool.
Variable close : connection -> outcome unit * connection.

Local Abbreviation do_handshake :=
  (handshake USER_AGENT read_request require_version).
Local Abbreviation do_handler :=
  (handler USER_AGENT read_request require_version close).
Local Abbreviation do_connection_made :=
  (connection_made USER_AGENT read_request require_version close).
Local Abbreviation the_path :=
  (exit_path_of USER_AGENT read_request require_version close).
Local Abbreviation the_response := (response_bytes USER_AGENT).
Local Abbreviation validate hs :=
  (check_request require_version (fun k => headers_get hs k "")).
Local Abbreviation log_warning :=
  (LogWarning "Exception in connection handler").

(** The handshake calls neither the handler nor the closing handshake, and
    logs nothing. *)
Lemma handshake_trace_quiet c :
  handler_calls (events (do_handshake c)) = []
  /\ warnings (events (do_handshake c)) = []
  /\ closing_calls (events (do_handshake c)) = 0.
Proof.
  rewrite handshake_run.
  destruct (read_request (stream c)) as [[[uri hs] | e0] rest];
    [| repeat split].
  destruct (validate hs); [| repeat split].
  destruct (opening_handshake c); repeat split.
Qed.

(** The handshake, whatever its outcome: it leaves on the stream what
    [read_request] left, never closes the transport and logs nothing; the
    transport has received exactly what the trace says was written, which
    is one chunk at most. *)
Theorem handshake_frame c :
  stream (final (do_handshake c)) = snd (read_request (stream c))
  /\ close_calls (transport (final (do_handshake c)))
     = close_calls (transport c)
  /\ transport_close_count (events (do_handshake c)) = 0
  /\ warnings (events (do_handshake c)) = []
  /\ written (transport (final (do_handshake c)))
     = written (transport c) ++ writes (events (do_handshake c))
  /\ List.length (writes (events (do_handshake c))) <= 1.
Proof.
  rewrite handshake_run.
  destruct (read_request (stream c)) as [[[uri hs] | e0] rest]; cbn [snd].
  - destruct (validate hs).
    + destruct (opening_handshake c); cbn; repeat split; auto.
    + cbn. rewrite app_nil_r. repeat split; auto.
  - cbn. rewrite app_nil_r. repeat split; auto.
Qed.

(** An exception of [read_request] that is not an instance of [Exception]
    is not turned into [InvalidHandshake]: the handshake raises it as it is,
    and so does the task, which neither logs nor closes the transport. *)
Theorem interrupted_read_passes_through h c e rest :
  read_request (stream c) = (Raised e, rest) ->
  is_Exception e = false ->
  do_handshake c = (Raised e, with_stream c rest, [ReadRequest])
  /\ do_handler (Some h) c = (Raised e, with_stream c rest, [ReadRequest]).
Proof.
  intros Hread He.
  assert (Hrun : do_handshake c = (Raised e, with_stream c rest, [ReadRequest])).
  { rewrite handshake_run, Hread, He. reflexivity. }
  split; [exact Hrun |].
  rewrite handler_run, handler_body_run, Hrun, He. reflexivity.
Qed.

(** The user handler is called once when the handshake returns, right after
    the operations of the handshake and with the URI the handshake returned,
    and the task writes nothing to the transport afterwards; when the
    handshake raises, the user handler is not called. *)
Theorem handler_called_once_after_handshake h c :
  match do_handshake c with
  | (Returned uri, _, t1) =>
      exists rest,
        events (do_handler (Some h) c) = t1 ++ CallHandler uri :: rest
        /\ handler_calls (events (do_handler (Some h) c)) = [uri]
        /\ writes rest = []
  | (Raised _, _, _) => handler_calls (events (do_handler (Some h) c)) = []
  end.
Proof.
  rewrite handler_run, handler_body_run.
  destruct (handshake_trace_quiet c) as (Hcalls & _ & _).
  destruct (do_handshake c) as [[[uri | e] c1] t1]; cbn [events snd] in Hcalls.
  - destruct (h uri c1) as [[[] | e] c2].
    + destruct (close c2) as [[[] | e] c3]; [| destruct (is_Exception e)];
        cbn [events snd]; rewrite <- ?app_assoc;
        (eexists; split; [reflexivity |]);
        rewrite handler_calls_app, Hcalls; split; reflexivity.
    + destruct (is_Exception e);
        cbn [events snd]; rewrite <- ?app_assoc;
        (eexists; split; [reflexivity |]);
        rewrite handler_calls_app, Hcalls; split; reflexivity.
  - destruct (is_Exception e); cbn [events snd];
      rewrite ?handler_calls_app, Hcalls; reflexivity.
Qed.

(** The closing handshake is started exactly once when the handshake and the
    user handler have both returned, and is not started on any other
    path. *)
Theorem closing_started_after_handler_returns ws c :
  closing_calls (events (do_handler ws c))
  = match the_path ws c with
    | Completed | ClosingFailure _ => 1
    | NoHandler | HandshakeFailure _ | HandlerFailure _ => 0
    end.
Proof.
  destruct ws as [h |]; cbn [exit_path_of]; [| reflexivity].
  rewrite handler_run, handler_body_run.
  destruct (handshake_trace_quiet c) as (_ & _ & Hclosing).
  destruct (do_handshake c) as [[[uri | e] c1] t1]; cbn [events snd] in Hclosing.
  - destruct (h uri c1) as [[[] | e] c2].
    + destruct (close c2) as [[[] | e] c3]; [| destruct (is_Exception e)];
        cbn [events snd]; rewrite !closing_calls_app, Hclosing; reflexivity.
    + destruct (is_Exception e);
        cbn [events snd]; rewrite !closing_calls_app, Hclosing; reflexivity.
  - destruct (is_Exception e); cbn [events snd];
      rewrite ?closing_calls_app, Hclosing; reflexivity.
Qed.

(** The task logs one warning, with the exception that ended its [try]
    block, on every path that an instance of [Exception] ends, and logs
    nothing on the other paths. *)
Theorem warning_logged_per_failure ws c :
  warnings (events (do_handler ws c))
  = match the_path ws c with
    | NoHandler =>
        [("Exception in connection handler",
          NotImplementedError "No handler defined")]
    | HandshakeFailure e | HandlerFailure e | ClosingFailure e =>
        if is_Exception e
        then [("Exception in connection handler", e)]
        else []
    | Completed => []
    end.
Proof.
  destruct ws as [h |]; cbn [exit_path_of]; [| reflexivity].
  rewrite handler_run, handler_body_run.
  destruct (handshake_trace_quiet c) as (_ & Hwarn & _).
  destruct (do_handshake c) as [[[uri | e] c1] t1]; cbn [events snd] in Hwarn.
  - destruct (h uri c1) as [[[] | e] c2].
    + destruct (close c2) as [[[] | e] c3]; [| destruct (is_Exception e)];
        cbn [events snd]; rewrite !warnings_app, Hwarn; reflexivity.
    + destruct (is_Exception e);
        cbn [events snd]; rewrite !warnings_app, Hwarn; reflexivity.
  - destruct (is_Exception e); cbn [events snd];
      rewrite ?warnings_app, Hwarn; reflexivity.
Qed.

(** When the handshake and the user handler return and the closing handshake
    raises an exception, the task logs a warning with it, closes the
    transport of the connection as the closing handshake left it, and
    returns. *)
Theorem closing_failure_contained h c uri c1 evs c2 e c3 :
  do_handshake c = (Returned uri, c1, evs) ->
  h uri c1 = (Returned tt, c2) ->
  close c2 = (Raised e, c3) ->
  is_Exception e = true ->
  do_handler (Some h) c
  = (Returned tt, closed_once c3,
     evs ++ [CallHandler uri; CallClose; log_warning e; TransportClose]).
Proof.
  intros Hrun Hh Hclose He.
  rewrite handler_run, handler_body_run, Hrun, Hh, Hclose, He.
  rewrite <- app_assoc. reflexivity.
Qed.

(** When the handshake, the user handler and the closing handshake all
    return, the task returns after the closing handshake and leaves the
    connection as the closing handshake left it, with nothing logged. *)
Theorem completed_task_ends_with_closing_handshake h c uri c1 evs c2 c3 :
  do_handshake c = (Returned uri, c1, evs) ->
  h uri c1 = (Returned tt, c2) ->
  close c2 = (Returned tt, c3) ->
  handler USER_AGENT read_request require_version close (Some h) c
  = (Returned tt, c3, evs ++ [CallHandler uri; CallClose]).
Proof.
  intros Hrun Hh Hclose.
  rewrite handler_run, handler_body_run, Hrun, Hh, Hclose. reflexivity.
Qed.

End TaskProperties.

(** ** Runs of the further scenarios *)

Lemma interrupted_read_passes_through_witness :
  handler Sample.user_agent Scenario.read_interrupted true Sample.close_ok
    (Some Sample.quiet_handler) Sample.accepted
  = (Raised (NonException "KeyboardInterrupt"), Sample.accepted,
     [ReadRequest]).
Proof.
  exact (proj2
    (interrupted_read_passes_through Sample.user_agent
       Scenario.read_interrupted true Sample.close_ok Sample.quiet_handler
       Sample.accepted (NonException "KeyboardInterrupt") []
       eq_refl eq_refl)).
Defined.

Lemma closing_failure_contained_witness :
  result (handler Sample.user_agent Sample.read_ok true Scenario.close_reset
            (Some Sample.quiet_handler) Sample.accepted) = Returned tt
  /\ warnings
       (events (handler Sample.user_agent Sample.read_ok true
                  Scenario.close_reset (Some Sample.quiet_handler)
                  Sample.accepted))
     = [("Exception in connection handler",
         OtherException "ConnectionResetError")].
Proof.
  assert (Hshake :
            handshake Sample.user_agent Sample.read_ok true Sample.accepted
            = (Returned "/chat",
               final (handshake Sample.user_agent Sample.read_ok true
                        Sample.accepted),
               events (handshake Sample.user_agent Sample.read_ok true
                         Sample.accepted)))
    by (vm_compute; reflexivity).
  pose proof (closing_failure_contained Sample.user_agent Sample.read_ok
                true Scenario.close_reset Sample.quiet_handler
                Sample.accepted "/chat" _ _ _
                (OtherException "ConnectionResetError") _
                Hshake eq_refl eq_refl eq_refl) as Hrun.
  split.
  - exact (f_equal result Hrun).
  - exact (eq_trans (f_equal (fun r => warnings (events r)) Hrun) eq_refl).
Defined.

Lemma completed_task_ends_with_closing_handshake_witness :
  result (handler Sample.user_agent Sample.read_ok true Sample.close_ok
            (Some Sample.quiet_handler) Sample.accepted) = Returned tt
  /\ state (final (handler Sample.user_agent Sample.read_ok true
                     Sample.close_ok (Some Sample.quiet_handler)
                     Sample.accepted)) = "OPEN".
Proof.
  assert (Hshake :
            handshake Sample.user_agent Sample.read_ok true Sample.accepted
            = (Returned "/chat",
               final (handshake Sample.user_agent Sample.read_ok true
                        Sample.accepted),
               events (handshake Sample.user_agent Sample.read_ok true
                         Sample.accepted)))
    by (vm_compute; reflexivity).
  pose proof (completed_task_ends_with_closing_handshake Sample.user_agent
                Sample.read_ok true Sample.close_ok Sample.quiet_handler
                Sample.accepted "/chat" _ _ _ _
                Hshake eq_refl eq_refl) as Hrun.
  split.
  - exact (f_equal result Hrun).
  - exact (eq_trans (f_equal (fun r => state (final r)) Hrun) eq_refl).
Defined.

(** * The task over a transport and a logger that can raise *)

Section FallibleProperties.

Variable USER_AGENT : string.
Variable read_request : list byte -> outcome (string * headers) * list byte.
Variable require_version : bool.
Variable close : connection -> outcome unit * connection.
Variable f : faults.

Local Abbreviation shake :=
  (handshake_with USER_AGENT read_request require_version f).
Local Abbreviation body :=
  (handler_body_with USER_AGENT read_request require_version close f).
Local Abbreviation task :=
  (handler_with USER_AGENT read_request require_version close f).
Local Abbreviation made :=
  (connection_made_with USER_AGENT read_request require_version close f).
Local Abbreviation reply := (response_bytes USER_AGENT).
Local Abbreviation valid hs :=
  (check_request require_version (fun k => headers_get hs k "")).
Local Abbreviation warn := (LogWarning "Exception in connection handler").

(** What [handshake_with] does, by the outcome of each of its calls. *)
Lemma handshake_with_run c :
  shake c =
  match read_request (stream c) with
  | (Raised e, rest) =>
      (Raised (if is_Exception e
               then InvalidHandshakeFrom "Malformed HTTP message" e
               else e),
       with_stream c rest, [ReadRequest])
  | (Returned (uri, hs), rest) =>
      match valid hs with
      | Raised e => (Raised e, with_stream c rest, [ReadRequest])
      | Returned key =>
          match write_fault f (reply key) (transport c) with
          | Some e =>
              (Raised e, with_stream c rest,
               [ReadRequest; TransportWrite (reply key)])
          | None =>
              match opening_handshake c with
              | None =>
                  (Returned uri, opened c (reply key) rest,
                   handshake_trace USER_AGENT key)
              | Some v =>
                  (Raised InvalidStateError,
                   mkConnection "OPEN" (Some v)
                     (mkTransport (written (transport c) ++ [reply key])
                                  (close_calls (transport c)))
                     rest,
                   handshake_trace USER_AGENT key)
              end
          end
      end
  end.
Proof.
  unfold handshake_with, bind, try_except, call_read_request, call,
    raise, ret, transport_write_or, transport_write, set_state,
    opening_handshake_set_result.
  destruct (read_request (stream c)) as [[[uri hs] | e] rest].
  - cbn [fst snd app]. destruct (valid hs) as [key | e]; [| reflexivity].
    cbn [opening_handshake state transport stream written close_calls].
    destruct (write_fault f (reply key) (transport c)); [reflexivity |].
    cbn [opening_handshake state transport stream written close_calls].
    destruct (opening_handshake c); reflexivity.
  - destruct (is_Exception e); reflexivity.
Qed.

Lemma handler_body_with_run h c :
  body (Some h) c =
  match shake c with
  | (Raised e, c1, t1) => (Raised e, c1, t1)
  | (Returned uri, c1, t1) =>
      match h uri c1 with
      | (Raised e, c2) => (Raised e, c2, t1 ++ [CallHandler uri])
      | (Returned _, c2) =>
          let '(r, c3) := close c2 in (r, c3, t1 ++ [CallHandler uri; CallClose])
      end
  end.
Proof.
  unfold handler_body_with, bind, ret, call_ws_handler, call_close.
  cbn [app].
  destruct (shake c) as [[[uri | e] c1] t1]; [| reflexivity].
  destruct (h uri c1) as [[[] | e] c2]; [| reflexivity].
  destruct (close c2) as [r c3]. reflexivity.
Qed.

(** What the [except] clause does when its own calls can raise. *)
Lemma handler_with_run ws c :
  task ws c =
  match body ws c with
  | (Raised e, c1, t1) =>
      if is_Exception e
      then
        match warning_fault f "Exception in connection handler" e with
        | Some e' => (Raised e', c1, t1 ++ [warn e])
        | None =>
            match close_fault f (transport c1) with
            | Some e' => (Raised e', c1, t1 ++ [warn e; TransportClose])
            | None =>
                (Returned tt, closed_once c1, t1 ++ [warn e; TransportClose])
            end
        end
      else (Raised e, c1, t1)
  | done => done
  end.
Proof.
  unfold handler_with, try_except, bind, ret, logger_warning_or,
    logger_warning, transport_close_or, transport_close.
  destruct (body ws c) as [[[[] | e] c1] t1]; [reflexivity |].
  destruct (is_Exception e); [| reflexivity].
  destruct (warning_fault f "Exception in connection handler" e);
    [reflexivity |].
  destruct (close_fault f (transport c1)); reflexivity.
Qed.

(** An instance of [Exception] leaves the task only from its [except]
    clause: the [try] block has raised an instance of [Exception], which
    was caught, and [logger.warning] or, after it, [transport.close()]
    raised the one that leaves.  Every instance of [Exception] raised in the
    [try] block itself (by the handshake, a failing [transport.write]
    included, by the user handler or by the closing handshake) is
    caught. *)
Theorem only_cleanup_Exceptions_escape ws c e :
  result (handler_with USER_AGENT read_request require_version close f ws c)
  = Raised e ->
  is_Exception e = true ->
  exists e0 c1 t1,
    body ws c = (Raised e0, c1, t1)
    /\ is_Exception e0 = true
    /\ (warning_fault f "Exception in connection handler" e0 = Some e
        \/ (warning_fault f "Exception in connection handler" e0 = None
            /\ close_fault f (transport c1) = Some e)).
Proof.
  rewrite handler_with_run.
  destruct (body ws c) as [[[[] | e0] c1] t1]; [discriminate |].
  destruct (is_Exception e0) eqn:He0.
  - destruct (warning_fault f "Exception in connection handler" e0)
      as [ew |] eqn:Hw.
    + cbn [result fst]. intros [= <-] _. exists e0, c1, t1. auto.
    + destruct (close_fault f (transport c1)) as [ec |] eqn:Hc;
        [| discriminate].
      cbn [result fst]. intros [= <-] _. exists e0, c1, t1. auto.
  - cbn [result fst]. intros [= <-] He. congruence.
Qed.

(** On a protocol just constructed with a handler, for a request that is
    read and accepted by the validator: when [transport.write] returns, the
    handshake completes (the response is appended to the transport given to
    [connection_made], the connection is open with the rest of the stream)
    and the user handler is called once with the URI of the request; when
    [transport.write] raises, the handshake raises the same exception with
    the connection still in state ['CONNECTING'], its future pending, and
    the user handler is not called. *)
Theorem fresh_connection_reaches_handler h p tr input uri hs rest key :
  init (Some h) = Returned p ->
  read_request input = (Returned (uri, hs), rest) ->
  valid hs = Returned key ->
  match write_fault f (reply key) tr with
  | None =>
      handshake_with USER_AGENT read_request require_version f
        (WebSocketCommonProtocol_connection_made (self p) tr input)
      = (Returned uri,
         mkConnection "OPEN" (Some true)
           (mkTransport (written tr ++ [reply key]) (close_calls tr)) rest,
         [ReadRequest; TransportWrite (reply key);
          SetState "OPEN"; SetResult true])
      /\ handler_calls (events (made p tr input)) = [uri]
  | Some e =>
      handshake_with USER_AGENT read_request require_version f
        (WebSocketCommonProtocol_connection_made (self p) tr input)
      = (Raised e, mkConnection "CONNECTING" None tr rest,
         [ReadRequest; TransportWrite (reply key)])
      /\ handler_calls (events (made p tr input)) = []
  end.
Proof.
  intros [= <-] Hread Hcheck.
  unfold connection_made_with. cbn [ws_handler self].
  rewrite handler_with_run, handler_body_with_run, handshake_with_run.
  cbn [stream transport opening_handshake
       WebSocketCommonProtocol_connection_made WebSocketCommonProtocol_init].
  rewrite Hread, Hcheck.
  destruct (write_fault f (reply key) tr) as [e |].
  - split; [reflexivity |].
    destruct (is_Exception e); [| reflexivity].
    destruct (warning_fault f "Exception in connection handler" e);
      [reflexivity |].
    destruct (close_fault f _); reflexivity.
  - split; [reflexivity |].
    destruct (h uri _) as [[[] | e] c2].
    + destruct (close c2) as [[[] | e] c3]; [reflexivity |].
      destruct (is_Exception e); [| reflexivity].
      destruct (warning_fault f "Exception in connection handler" e);
        [reflexivity |].
      destruct (close_fault f _); reflexivity.
    + destruct (is_Exception e); [| reflexivity].
      destruct (warning_fault f "Exception in connection handler" e);
        [reflexivity |].
      destruct (close_fault f _); reflexivity.
Qed.

End FallibleProperties.

(** Without faults the task is [handler] and the handshake [handshake]. *)
Lemma handshake_with_no_faults ua rr rv c :
  handshake_with ua rr rv no_faults c = handshake ua rr rv c.
Proof.
  rewrite handshake_with_run, handshake_run.
  destruct (rr (stream c)) as [[[uri hs] | e] rest]; reflexivity.
Qed.

Lemma handler_with_no_faults ua rr rv cl ws c :
  handler_with ua rr rv cl no_faults ws c = handler ua rr rv cl ws c.
Proof.
  rewrite handler_with_run, handler_run.
  destruct ws as [h |]; [| reflexivity].
  rewrite handler_body_with_run, handler_body_run, handshake_with_no_faults.
  reflexivity.
Qed.

Lemma only_cleanup_Exceptions_escape_witness :
  exists e0 c1 t1,
    handler_body_with Sample.user_agent Sample.read_malformed true
      Sample.close_ok Faults.bad_socket (Some Sample.quiet_handler)
      Sample.accepted
    = (Raised e0, c1, t1)
    /\ is_Exception e0 = true
    /\ close_fault Faults.bad_socket (transport c1)
       = Some (OtherException "OSError").
Proof.
  destruct (only_cleanup_Exceptions_escape Sample.user_agent
              Sample.read_malformed true Sample.close_ok Faults.bad_socket
              (Some Sample.quiet_handler) Sample.accepted
              (OtherException "OSError") eq_refl eq_refl)
    as (e0 & c1 & t1 & Hbody & He0 & _).
  exists e0, c1, t1.
  split; [exact Hbody |]. split; [exact He0 | reflexivity].
Defined.

Lemma fresh_connection_reaches_handler_witness :
  handler_calls
    (events (connection_made_with Sample.user_agent Sample.read_ok true
               Sample.close_ok no_faults
               (mkProtocol (Some Sample.quiet_handler)
                  WebSocketCommonProtocol_init)
               fresh_transport [])) = ["/chat"]
  /\ handler_calls
       (events (connection_made_with Sample.user_agent Sample.read_ok true
                  Sample.close_ok Faults.broken_pipe
                  (mkProtocol (Some Sample.quiet_handler)
                     WebSocketCommonProtocol_init)
                  fresh_transport [])) = [].
Proof.
  split.
  - exact (proj2
      (fresh_connection_reaches_handler Sample.user_agent Sample.read_ok
         true Sample.close_ok no_faults Sample.quiet_handler
         (mkProtocol (Some Sample.quiet_handler) WebSocketCommonProtocol_init)
         fresh_transport [] "/chat" (snd Sample.request) []
         "dGhlIHNhbXBsZSBub25jZQ=="
         eq_refl eq_refl eq_refl)).
  - exact (proj2
      (fresh_connection_reaches_handler Sample.user_agent Sample.read_ok
         true Sample.close_ok Faults.broken_pipe Sample.quiet_handler
         (mkProtocol (Some Sample.quiet_handler) WebSocketCommonProtocol_init)
         fresh_transport [] "/chat" (snd Sample.request) []
         "dGhlIHNhbXBsZSBub25jZQ=="
         eq_refl eq_refl eq_refl)).
Defined.
